(** * OAuth 1 client for httpx: a shallow embedding

    This development embeds
    [authlib/integrations/httpx_client/oauth1_client.py] and states the
    properties of its three classes:

    - [OAuth1Auth], the request signer, whose [auth_flow] is a generator;
    - [AsyncOAuth1Client], whose [fetch_access_token] drives the last leg of
      the handshake;
    - [OAuth1Client], the blocking variant, which differs in its constructor.

    Python objects are modelled by records, [**kwargs] by finite maps with
    string keys, exceptions by an error monad layered over the client state
    (a raised exception keeps the mutations made before it), and the
    generator by an inductive tree of yields. *)

From Stdlib Require Import String Ascii ZArith List Decimal DecimalNat DecimalString.
From stdpp Require Import gmap strings list.

Local Open Scope string_scope.

(** ** Python values, keyword arguments, exceptions *)

(** The values that travel through [**kwargs]. Objects whose structure the
    module never inspects (an application, a transport, a limits object) are
    kept by identity. *)
Inductive value : Type :=
| VNone
| VBool (b : bool)
| VInt (z : Z)
| VStr (s : string)
| VObject (id : positive)
| VWSGITransport (app : value).

(** [**kwargs]: a dict with string keys. *)
Abbreviation Kwargs := (gmap string value).

(** A parsed token: the dict built from the token endpoint's answer. *)
Abbreviation Token := (gmap string string).

(** Exceptions. [OAuthError] is [base_client.OAuthError(error, description)],
    the only exception this module raises itself. The others are the error
    kinds of the collaborators (the signature engine, the transport, the
    token parser), which this module lets through unchanged. *)
Inductive exn : Type :=
| OAuthError (error description : string)
| MissingCredential (description : string)
| InvalidSignatureMethod (description : string)
| MissingToken (description : string)
| RemoteOAuthError (description : string)
| TransportError (description : string).

Inductive result (A : Type) : Type :=
| Ok (a : A)
| Raise (e : exn).
Arguments Ok {A} a.
Arguments Raise {A} e.

(** Truth value of an optional string in a Python [if]: [None] and the empty
    string are false, every other string is true. *)
Definition truthy (v : option string) : bool :=
  match v with
  | None => false
  | Some EmptyString => false
  | Some (String _ _) => true
  end.

(** ** HTTP messages *)

(** Header fields: ordered, with keys compared without regard to case. *)
Abbreviation Headers := (list (string * string)).

Definition lower_ascii (a : ascii) : ascii :=
  let n := nat_of_ascii a in
  if (65 <=? n)%nat && (n <=? 90)%nat then ascii_of_nat (n + 32) else a.

Fixpoint lower (s : string) : string :=
  match s with
  | EmptyString => EmptyString
  | String a s' => String (lower_ascii a) (lower s')
  end.

Definition same_key (k k' : string) : bool := String.eqb (lower k) (lower k').

(** All the values a header has, in order. *)
Definition get_list (k : string) (h : Headers) : list string :=
  map snd (List.filter (fun kv => same_key k (fst kv)) h).

Definition remove_key (k : string) (h : Headers) : Headers :=
  List.filter (fun kv => negb (same_key k (fst kv))) h.

Fixpoint replace_first (k v : string) (h : Headers) : Headers :=
  match h with
  | [] => []
  | (k', v') :: h' =>
      if same_key k k' then (k, v) :: remove_key k h'
      else (k', v') :: replace_first k v h'
  end.

(** [headers[k] = v]: the first field named [k] takes the value, later
    fields of that name are dropped; a new field goes to the end. *)
Definition setitem (k v : string) (h : Headers) : Headers :=
  if existsb (fun kv => same_key k (fst kv)) h
  then replace_first k v h
  else h ++ [(k, v)].

Module Request.
Record t : Type := mk {
  method : string;
  url : string;
  headers : Headers;
  content : list Byte.byte
}.
End Request.

Module Response.
Record t : Type := mk {
  status_code : Z;
  content : list Byte.byte
}.
End Response.

(** [str(n)] for a length, and [int(s)], which reads it back. *)
Definition str (n : nat) : string := NilZero.string_of_uint (Nat.to_uint n).

Definition int (s : string) : option nat :=
  option_map Nat.of_uint (NilZero.uint_of_string s).

(** Modelled from the spec: [build_request] of [.utils] is not part of this
    module. The signer returns a new signed representation of the request
    (method, URL, headers, body bytes) and leaves the caller's object alone:
    the method is the initial request's, the rest is what the signer
    computed. *)
Definition build_request (url : string) (headers : Headers)
    (body : list Byte.byte) (initial_request : Request.t) : Request.t :=
  {| Request.method := Request.method initial_request;
     Request.url := url;
     Request.headers := headers;
     Request.content := body |}.

(** ** Generators *)

(** A generator that yields [Y], is resumed with [S] and returns [R]: it has
    returned, raised, or is suspended at a [yield] with the rest of its body
    waiting for the value sent in. *)
Inductive Generator (Y S R : Type) : Type :=
| Return (r : R)
| Throw (e : exn)
| Yield (y : Y) (k : S -> Generator Y S R).
Arguments Return {Y S R} r.
Arguments Throw {Y S R} e.
Arguments Yield {Y S R} y k.

(** How the HTTP pipeline runs an auth flow: every request the flow yields is
    sent, and the response is sent back into the flow, until the flow ends.
    The result lists the requests that went out, in order. *)
Fixpoint drive {R} (send : Request.t -> Response.t)
    (g : Generator Request.t Response.t R) : list Request.t * result R :=
  match g with
  | Return r => ([], Ok r)
  | Throw e => ([], Raise e)
  | Yield y k =>
      let (ys, r) := drive send (k (send y)) in (y :: ys, r)
  end.

(** ** class OAuth1Auth *)

Module OAuth1Auth.
Section Signer.

(** [ClientAuth.prepare], the Authorization Builder, for the credentials
    the signer holds: it returns the signed URL, headers and body, or
    raises. *)
Variable prepare :
  string -> string -> Headers -> list Byte.byte ->
  result (string * Headers * list Byte.byte).

Definition requires_request_body : bool := true.

Definition auth_flow (request : Request.t)
  : Generator Request.t Response.t unit :=
  match prepare (Request.method request) (Request.url request)
                (Request.headers request) (Request.content request) with
  | Raise e => Throw e
  | Ok (url, headers, body) =>
      let headers := setitem "Content-Length" (str (length body)) headers in
      Yield (build_request url headers body request) (fun _ => Return tt)
  end.

End Signer.
End OAuth1Auth.

(** ** The client object *)

(** [self.auth]: the token credentials the signer holds, which are the
    attributes of it the handshake reads and writes: token identifier, token
    secret and verifier. *)
Module ClientAuth.
Record t : Type := mk {
  token : option string;
  token_secret : option string;
  verifier : option string
}.
End ClientAuth.

(** The mutable state of a client: the signer, and the requests handed to
    the transport by [self.post], oldest first. *)
Record Client : Type := mkClient {
  auth : ClientAuth.t;
  requests : list (string * Kwargs)
}.

(** The token credentials a client stores: identifier and secret. *)
Definition token (c : Client) : option string * option string :=
  (ClientAuth.token (auth c), ClientAuth.token_secret (auth c)).

(** [self.auth.verifier = v] *)
Definition set_verifier (v : option string) (c : Client) : Client :=
  {| auth := {| ClientAuth.token := ClientAuth.token (auth c);
                ClientAuth.token_secret := ClientAuth.token_secret (auth c);
                ClientAuth.verifier := v |};
     requests := requests c |}.

(** Modelled from the spec: the [token] property of the base client is not
    part of this module. Assigning a token to it replaces the token
    credentials of the signer by those of the token: the identifier
    [oauth_token], and the secret [oauth_token_secret] and the verifier
    [oauth_verifier] when the token has them; whatever else the token holds
    is not stored. *)
Definition store_token (t : Token) (a : ClientAuth.t) : ClientAuth.t :=
  {| ClientAuth.token := t !! "oauth_token";
     ClientAuth.token_secret :=
       match t !! "oauth_token_secret" with
       | Some secret => Some secret
       | None => ClientAuth.token_secret a
       end;
     ClientAuth.verifier :=
       match t !! "oauth_verifier" with
       | Some v => Some v
       | None => ClientAuth.verifier a
       end |}.

Definition with_token (t : Token) (c : Client) : Client :=
  {| auth := store_token t (auth c); requests := requests c |}.

Definition log_request (url : string) (kwargs : Kwargs) (c : Client) : Client :=
  {| auth := auth c;
     requests := requests c ++ [(url, kwargs)] |}.

(** ** Methods as state transformers that may raise *)

Definition M (A : Type) : Type := Client -> result A * Client.

Definition ret {A} (a : A) : M A := fun c => (Ok a, c).

Definition raise {A} (e : exn) : M A := fun c => (Raise e, c).

Definition bind {A B} (m : M A) (k : A -> M B) : M B :=
  fun c =>
    match m c with
    | (Ok a, c') => k a c'
    | (Raise e, c') => (Raise e, c')
    end.

Definition lift {A} (r : result A) : M A := fun c => (r, c).

Definition get {A} (f : Client -> A) : M A := fun c => (Ok (f c), c).

Definition modify (f : Client -> Client) : M unit := fun c => (Ok tt, f c).

Declare Scope py_scope.
Delimit Scope py_scope with py.
Notation "x <- m ;; k" := (bind m (fun x => k))
  (at level 100, m at next level, right associativity) : py_scope.
Notation "m ;; k" := (bind m (fun _ => k))
  (at level 100, right associativity) : py_scope.
Notation "'when' b 'then' m" := (if b then m else ret tt)
  (at level 99, b at level 98, m at level 98) : py_scope.

(** The double quote, which the message of [missing_verifier] contains. *)
Definition dquote : string := String "034"%char EmptyString.

Definition missing_verifier_description : string :=
  "Missing " +:+ dquote +:+ "verifier" +:+ dquote +:+ " value".

(** ** Constructor arguments *)

Module Args.
Record t : Type := mk {
  client_id : string;
  client_secret : option string;
  token : option string;
  token_secret : option string;
  redirect_uri : option string;
  rsa_key : option string;
  verifier : option string;
  signature_method : string;
  signature_type : string;
  force_include_body : bool
}.
End Args.

(** The first positional argument of [_OAuth1Client.__init__], the session:
    [None] in the asynchronous client, the client itself in the blocking
    one. *)
Inductive session : Type :=
| SessionNone
| SessionSelf.

(** What a constructor does: the two base-class initialisers it calls and
    what it hands to each. *)
Record Constructed : Type := mkConstructed {
  httpx_init : Kwargs;
  oauth1_session : session;
  oauth1_args : Args.t;
  oauth1_kwargs : Kwargs
}.

(** ** class AsyncOAuth1Client *)

Module AsyncOAuth1Client.
Section Methods.

(** The collaborators, which live outside this module:
    [extract_client_kwargs] of [.utils], which splits the keyword arguments
    into those of the HTTP client and the rest; the transport behind
    [self.post] (it may depend on everything the client holds at the time of
    the call, since the signer reads the current credentials);
    [authlib.common.encoding.to_unicode]; [parse_response_token] of the
    base client; and the message the base client writes for a token without
    identifier. *)
Variable extract_client_kwargs : Kwargs -> Kwargs * Kwargs.
Variable transport : Client -> string -> Kwargs -> result Response.t.
Variable to_unicode : list Byte.byte -> result string.
Variable parse_response_token : Z -> string -> result Token.
Variable missing_token_message : Token -> string.

Local Open Scope py_scope.

Definition __init__ (args : Args.t) (kwargs : Kwargs) : Constructed :=
  let '(_client_kwargs, kwargs) := extract_client_kwargs kwargs in
  let _client_kwargs := <["verify" := VBool false]> _client_kwargs in
  {| httpx_init := _client_kwargs;
     oauth1_session := SessionNone;
     oauth1_args := args;
     oauth1_kwargs := kwargs |}.

(** [handle_error]: a static method that raises. *)
Definition handle_error {A} (error_type error_description : string) : M A :=
  raise (OAuthError error_type error_description).

(** [await self.post(url, **kwargs)] *)
Definition post (url : string) (kwargs : Kwargs) : M Response.t :=
  fun c => (transport c url kwargs, log_request url kwargs c).

(** [await resp.aread()] *)
Definition aread (resp : Response.t) : M (list Byte.byte) :=
  ret (Response.content resp).

(** Modelled from the spec: [self.token = token] runs the setter of the
    base client's [token] property, which is not part of this module. A token
    with an [oauth_token] replaces the token credentials; one without is
    refused with [missing_token], raised through [handle_error] before
    anything is stored. *)
Definition token_setter (token : Token) : M unit :=
  match token !! "oauth_token" with
  | Some _ => modify (with_token token)
  | None => handle_error "missing_token" (missing_token_message token)
  end.

Definition _fetch_token (url : string) (kwargs : Kwargs) : M Token :=
  resp <- post url kwargs ;;
  text <- aread resp ;;
  utext <- lift (to_unicode text) ;;
  token <- lift (parse_response_token (Response.status_code resp) utext) ;;
  token_setter token ;;
  ret token.

Definition fetch_access_token (url : string) (verifier : option string)
    (kwargs : Kwargs) : M Token :=
  (when truthy verifier then modify (set_verifier verifier)) ;;
  stored <- get (fun c => ClientAuth.verifier (auth c)) ;;
  (when negb (truthy stored) then
     handle_error "missing_verifier" missing_verifier_description) ;;
  token <- _fetch_token url kwargs ;;
  modify (set_verifier None) ;;
  ret token.

End Methods.
End AsyncOAuth1Client.

(** ** class OAuth1Client *)

Module OAuth1Client.
Section Methods.

Variable extract_client_kwargs : Kwargs -> Kwargs * Kwargs.

(** [d.pop(k, None)]: the value and the dict without the key. *)
Definition pop (k : string) (d : Kwargs) : value * Kwargs :=
  (default VNone (d !! k), delete k d).

Definition is_not_None (v : value) : bool :=
  match v with
  | VNone => false
  | _ => true
  end.

Definition __init__ (args : Args.t) (kwargs : Kwargs) : Constructed :=
  let '(_client_kwargs, kwargs) := extract_client_kwargs kwargs in
  let _client_kwargs := <["verify" := VBool false]> _client_kwargs in
  let '(app_value, _client_kwargs) := pop "app" _client_kwargs in
  let _client_kwargs :=
    if is_not_None app_value
    then <["transport" := VWSGITransport app_value]> _client_kwargs
    else _client_kwargs in
  {| httpx_init := _client_kwargs;
     oauth1_session := SessionSelf;
     oauth1_args := args;
     oauth1_kwargs := kwargs |}.

Definition handle_error {A} (error_type error_description : string) : M A :=
  raise (OAuthError error_type error_description).

End Methods.
End OAuth1Client.

(** ** The token endpoint's answer *)

Module TokenResponse.

(** The pieces of [s] between occurrences of [sep]. *)
Fixpoint split_on (sep : ascii) (s : string) : list string :=
  match s with
  | EmptyString => [EmptyString]
  | String a s' =>
      if Ascii.eqb a sep then EmptyString :: split_on sep s'
      else match split_on sep s' with
           | [] => [String a EmptyString]
           | w :: ws => String a w :: ws
           end
  end.

(** [s] cut at the first [sep], when there is one. *)
Fixpoint cut (sep : ascii) (s : string) : option (string * string) :=
  match s with
  | EmptyString => None
  | String a s' =>
      if Ascii.eqb a sep then Some (EmptyString, s')
      else match cut sep s' with
           | Some (k, v) => Some (String a k, v)
           | None => None
           end
  end.

Definition hex_value (a : ascii) : option nat :=
  let n := nat_of_ascii a in
  if (48 <=? n)%nat && (n <=? 57)%nat then Some (n - 48)%nat
  else if (65 <=? n)%nat && (n <=? 70)%nat then Some (n - 55)%nat
  else if (97 <=? n)%nat && (n <=? 102)%nat then Some (n - 87)%nat
  else None.

(** Percent-decoding: [%XY] stands for the byte with hexadecimal digits [XY];
    a [%] that is not followed by two such digits is not an encoding. *)
Fixpoint unquote (s : string) : option string :=
  match s with
  | EmptyString => Some EmptyString
  | String "%"%char (String h (String l s')) =>
      match hex_value h, hex_value l, unquote s' with
      | Some x, Some y, Some r => Some (String (ascii_of_nat (16 * x + y)) r)
      | _, _, _ => None
      end
  | String "%"%char _ => None
  | String a s' =>
      match unquote s' with
      | Some r => Some (String a r)
      | None => None
      end
  end.

Fixpoint decode_pairs (segments : list string) : option (list (string * string)) :=
  match segments with
  | [] => Some []
  | EmptyString :: rest => decode_pairs rest
  | seg :: rest =>
      match cut "="%char seg with
      | None => None
      | Some (k, v) =>
          match unquote k, unquote v, decode_pairs rest with
          | Some k', Some v', Some kvs => Some ((k', v') :: kvs)
          | _, _, _ => None
          end
      end
  end.

(** Modelled from the spec: the decoder of [application/x-www-form-urlencoded]
    bodies is not part of this module. The body is a sequence of [key=value]
    pairs joined by [&], keys and values percent-encoded; [None] when the
    body is not of that form. *)
Definition url_decode (text : string) : option (list (string * string)) :=
  decode_pairs (split_on "&"%char text).

(** [dict(pairs)]: a later pair overrides an earlier one of the same key. *)
Definition dict (pairs : list (string * string)) : Token :=
  fold_left (fun m kv => <[fst kv := snd kv]> m) pairs ∅.

Definition has (k : string) (t : Token) : bool :=
  match t !! k with
  | Some _ => true
  | None => false
  end.

(** The message of a failed token request: the [error_description] the
    server reported when there is one, a generic message otherwise. *)
Definition describe (fields : option (list (string * string))) : string :=
  match fields with
  | Some kvs => default "invalid token response" (dict kvs !! "error_description")
  | None => "invalid token response"
  end.

(** Modelled from the spec: [parse_response_token] of the base client is not
    part of this module. A non-success status or an [error] /
    [error_description] payload is a [RemoteOAuthError]; otherwise the body
    is parsed as form-encoded key/values, and [oauth_token] and
    [oauth_token_secret] are required ([MissingToken] otherwise, also when
    the body is not form-encoded). *)
Definition parse_response_token (status_code : Z) (text : string) : result Token :=
  let fields := url_decode text in
  if negb ((200 <=? status_code)%Z && (status_code <? 300)%Z)
  then Raise (RemoteOAuthError (describe fields))
  else
    match fields with
    | None => Raise (MissingToken (describe fields))
    | Some kvs =>
        let token := dict kvs in
        if has "error" token || has "error_description" token
        then Raise (RemoteOAuthError (describe fields))
        else if has "oauth_token" token && has "oauth_token_secret" token
        then Ok token
        else Raise (MissingToken (describe fields))
    end.

End TokenResponse.

(** ** Instances of the collaborators, for the examples *)

Module Sample.

(** Keyword arguments split by a list of names: the named ones go to the HTTP
    client and leave the rest. *)
Definition split_kwargs (names : list string) (kwargs : Kwargs) : Kwargs * Kwargs :=
  (filter (fun kv => fst kv ∈ names) kwargs,
   filter (fun kv => fst kv ∉ names) kwargs).

(** Names of keyword arguments of the HTTP client, for an extractor that
    lets [app] through. *)
Definition client_names : list string :=
  ["headers"; "verify"; "timeout"; "transport"; "app"].

Definition extract_client_kwargs : Kwargs -> Kwargs * Kwargs :=
  split_kwargs client_names.



(** A caller who asks for strict verification and has nothing else to say. *)
Definition strict_kwargs : Kwargs := {["verify" := VBool true]}.

(** A caller who passes a WSGI application, a timeout and a realm. *)
Definition app_kwargs : Kwargs :=
  <["app" := VObject 1]> (<["timeout" := VInt 5]> {["realm" := VStr "r"]}).

Definition args : Args.t :=
  {| Args.client_id := "ck";
     Args.client_secret := Some "cs";
     Args.token := None;
     Args.token_secret := None;
     Args.redirect_uri := None;
     Args.rsa_key := None;
     Args.verifier := None;
     Args.signature_method := "HMAC-SHA1";
     Args.signature_type := "HEADER";
     Args.force_include_body := false |}.

(** Bytes as text, one character per byte. *)
Definition to_unicode (b : list Byte.byte) : result string :=
  Ok (string_of_list_byte b).

(** A token endpoint that answers every request with the same response. *)
Definition constant_transport (r : Response.t)
  : Client -> string -> Kwargs -> result Response.t :=
  fun _ _ _ => Ok r.

(** A transport that is down. *)
Definition failing_transport : Client -> string -> Kwargs -> result Response.t :=
  fun _ _ _ => Raise (TransportError "connection refused").

Definition access_token_response : Response.t :=
  {| Response.status_code := 200;
     Response.content := list_byte_of_string "oauth_token=at&oauth_token_secret=ats" |}.

(** A token endpoint whose answer carries a verifier of its own. *)
Definition verifier_response : Response.t :=
  {| Response.status_code := 200;
     Response.content :=
       list_byte_of_string
         "oauth_token=at&oauth_token_secret=ats&oauth_verifier=zzz" |}.

(** A token endpoint whose answer has no token. *)
Definition foo_response : Response.t :=
  {| Response.status_code := 200;
     Response.content := list_byte_of_string "foo=bar" |}.

(** A parser that asks nothing of the fields it decodes. *)
Definition lenient_parse (status_code : Z) (text : string) : result Token :=
  match TokenResponse.url_decode text with
  | Some kvs => Ok (TokenResponse.dict kvs)
  | None => Raise (MissingToken "invalid token response")
  end.

Definition missing_token_message (t : Token) : string :=
  "oauth_token is missing".

Definition fresh_client : Client :=
  {| auth := {| ClientAuth.token := None;
                ClientAuth.token_secret := None;
                ClientAuth.verifier := None |};
     requests := [] |}.

(** A client that holds the request token of the spec's scenario. *)
Definition request_token_client : Client :=
  {| auth := {| ClientAuth.token := Some "rt";
                ClientAuth.token_secret := Some "rts";
                ClientAuth.verifier := None |};
     requests := [("https://ex.com/request_token", ∅)] |}.

Definition access_token : Token :=
  <["oauth_token_secret" := "ats"]> (<["oauth_token" := "at"]> ∅).

(** The fresh client after the access token was fetched from
    [https://ex.com/access_token]. *)
Definition authorized_client : Client :=
  {| auth := {| ClientAuth.token := Some "at";
                ClientAuth.token_secret := Some "ats";
                ClientAuth.verifier := None |};
     requests := [("https://ex.com/access_token", ∅)] |}.

(** The fresh client after an exchange with verifier [v1] that failed. *)
Definition failed_client : Client :=
  {| auth := {| ClientAuth.token := None;
                ClientAuth.token_secret := None;
                ClientAuth.verifier := Some "v1" |};
     requests := [("https://ex.com/access_token", ∅)] |}.

(** A signer that leaves the URL and the body alone and adds an
    [Authorization] header. *)
Definition header_prepare (method url : string) (headers : Headers)
    (body : list Byte.byte) : result (string * Headers * list Byte.byte) :=
  Ok (url, setitem "Authorization" "OAuth oauth_signature=sig" headers, body).

(** A signer without the secret its signature method needs. *)
Definition failing_prepare (method url : string) (headers : Headers)
    (body : list Byte.byte) : result (string * Headers * list Byte.byte) :=
  Raise (MissingCredential "client_secret").

(** A signer configured with a signature method that does not exist. *)
Definition unknown_method_prepare (method url : string) (headers : Headers)
    (body : list Byte.byte) : result (string * Headers * list Byte.byte) :=
  Raise (InvalidSignatureMethod "Invalid signature method.").

(** A signer that appends the signature to the body. *)
Definition body_prepare (method url : string) (headers : Headers)
    (body : list Byte.byte) : result (string * Headers * list Byte.byte) :=
  Ok (url, headers, (body ++ list_byte_of_string "&oauth_signature=sig")%list).

Definition form_request : Request.t :=
  {| Request.method := "POST";
     Request.url := "https://ex.com/resource";
     Request.headers := [("Content-Type", "application/x-www-form-urlencoded");
                         ("content-length", "3")];
     Request.content := list_byte_of_string "a=b" |}.

End Sample.

(** ** Vocabulary of the statements *)

(** An exception is the one [fetch_access_token] raises for a missing
    verifier. *)
Definition is_missing_verifier (e : exn) : bool :=
  match e with
  | OAuthError error _ => String.eqb error "missing_verifier"
  | _ => false
  end.

(** A collaborator's outcome that is not that exception. *)
Definition not_missing_verifier {A} (r : result A) : Prop :=
  match r with
  | Ok _ => True
  | Raise e => is_missing_verifier e = false
  end.

(** The client as the verifier check sees it: a true verifier argument has
    been stored, a false one has been ignored. *)
Definition with_argument (v : option string) (c : Client) : Client :=
  if truthy v then set_verifier v c else c.

Ltac run_method :=
  unfold AsyncOAuth1Client.fetch_access_token, AsyncOAuth1Client._fetch_token,
    AsyncOAuth1Client.token_setter,
    AsyncOAuth1Client.handle_error, AsyncOAuth1Client.post,
    AsyncOAuth1Client.aread, bind, get, modify, lift, ret, raise in *;
  simpl in *.

(** * Properties *)

(** ** The access-token leg of the handshake *)

Example sample_parse :
  TokenResponse.parse_response_token 200 "oauth_token=at&oauth_token_secret=a%20s"
  = Ok (<["oauth_token_secret" := "a s"]> (<["oauth_token" := "at"]> ∅)).
Proof. vm_compute. reflexivity. Qed.

Example sample_flow :
  drive (fun _ => Sample.access_token_response)
        (OAuth1Auth.auth_flow Sample.body_prepare Sample.form_request)
  = ([ {| Request.method := "POST";
          Request.url := "https://ex.com/resource";
          Request.headers := [("Content-Type", "application/x-www-form-urlencoded");
                              ("Content-Length", "23")];
          Request.content := list_byte_of_string "a=b&oauth_signature=sig" |} ],
     Ok tt).
Proof. vm_compute. reflexivity. Qed.

Section HandshakeFacts.

Variable transport : Client -> string -> Kwargs -> result Response.t.
Variable to_unicode : list Byte.byte -> result string.
Variable parse_response_token : Z -> string -> result Token.
Variable missing_token_message : Token -> string.

Local Abbreviation fetch_access_token :=
  (AsyncOAuth1Client.fetch_access_token transport to_unicode parse_response_token
     missing_token_message).
Local Abbreviation _fetch_token :=
  (AsyncOAuth1Client._fetch_token transport to_unicode parse_response_token
     missing_token_message).

(** When neither the argument nor the stored verifier is true, the call
    raises at the check and touches nothing. *)
Lemma fetch_access_token_stops url v kwargs c :
  truthy v = false ->
  truthy (ClientAuth.verifier (auth c)) = false ->
  fetch_access_token url v kwargs c
  = (Raise (OAuthError "missing_verifier" missing_verifier_description), c).
Proof.
  intros Hv Hs. run_method. rewrite Hv. simpl. rewrite Hs. reflexivity.
Qed.

(** When one of them is true, the call goes on to [_fetch_token], and clears
    the verifier if that returns. *)
Lemma fetch_access_token_proceeds url v kwargs c :
  truthy (ClientAuth.verifier (auth (with_argument v c))) = true ->
  fetch_access_token url v kwargs c
  = match _fetch_token url kwargs (with_argument v c) with
    | (Ok tok, c') => (Ok tok, set_verifier None c')
    | (Raise e, c') => (Raise e, c')
    end.
Proof.
  unfold with_argument. intros H.
  unfold AsyncOAuth1Client.fetch_access_token, bind, get, modify, ret.
  destruct (truthy v); simpl in *; rewrite H; simpl;
    destruct (_fetch_token _ _ _) as [[tok|e] c']; reflexivity.
Qed.

(** The check looks at the stored verifier after the argument was taken in:
    it is true exactly when one of the two is. *)
Lemma truthy_with_argument v c :
  truthy (ClientAuth.verifier (auth (with_argument v c)))
  = truthy v || truthy (ClientAuth.verifier (auth c)).
Proof.
  unfold with_argument. destruct (truthy v) eqn:E; simpl; [exact E | reflexivity].
Qed.

(** [_fetch_token] always hands one request to the transport. *)
Lemma _fetch_token_requests url kwargs c :
  requests (snd (_fetch_token url kwargs c)) = (requests c ++ [(url, kwargs)])%list.
Proof.
  run_method.
  destruct (transport c url kwargs) as [resp|e]; simpl; [|reflexivity].
  destruct (to_unicode _) as [text|e]; simpl; [|reflexivity].
  destruct (parse_response_token _ _) as [tok|e]; simpl; [|reflexivity].
  destruct (tok !! "oauth_token"); reflexivity.
Qed.

(** What a returning [_fetch_token] has done. *)
Lemma _fetch_token_returns url kwargs c tok c' :
  _fetch_token url kwargs c = (Ok tok, c') ->
  exists resp text,
    transport c url kwargs = Ok resp /\
    to_unicode (Response.content resp) = Ok text /\
    parse_response_token (Response.status_code resp) text = Ok tok /\
    is_Some (tok !! "oauth_token") /\
    c' = with_token tok (log_request url kwargs c).
Proof.
  run_method.
  destruct (transport c url kwargs) as [resp|e]; simpl; [|discriminate].
  destruct (to_unicode _) as [text|e] eqn:Et; simpl; [|discriminate].
  destruct (parse_response_token _ _) as [tok'|e] eqn:Ep; simpl; [|discriminate].
  destruct (tok' !! "oauth_token") as [id|] eqn:Eid; simpl; [|discriminate].
  intros [= <- <-]. exists resp, text. rewrite Eid. eauto 6.
Qed.

(** What a raising [_fetch_token] raises comes from a collaborator, or is
    the [missing_token] of the token setter. *)
Lemma _fetch_token_raises url kwargs c e c' :
  _fetch_token url kwargs c = (Raise e, c') ->
  transport c url kwargs = Raise e \/
  (exists b, to_unicode b = Raise e) \/
  (exists s t, parse_response_token s t = Raise e) \/
  (exists tok, e = OAuthError "missing_token" (missing_token_message tok)).
Proof.
  run_method.
  destruct (transport c url kwargs) as [resp|e0]; simpl.
  - destruct (to_unicode _) as [text|e1] eqn:Et; simpl.
    + destruct (parse_response_token _ _) as [tok'|e2] eqn:Ep; simpl.
      * destruct (tok' !! "oauth_token"); simpl; [discriminate|].
        intros [= <- <-]. right. right. right. eauto.
      * intros [= <- <-]. right. right. left. eauto.
    + intros [= <- <-]. right. left. eauto.
  - intros [= <- <-]. left. reflexivity.
Qed.

End HandshakeFacts.

Section HandshakeClaims.

Variable transport : Client -> string -> Kwargs -> result Response.t.
Variable to_unicode : list Byte.byte -> result string.
Variable parse_response_token : Z -> string -> result Token.
Variable missing_token_message : Token -> string.

Local Abbreviation fetch_access_token :=
  (AsyncOAuth1Client.fetch_access_token transport to_unicode parse_response_token
     missing_token_message).
Local Abbreviation _fetch_token :=
  (AsyncOAuth1Client._fetch_token transport to_unicode parse_response_token
     missing_token_message).

(** C1: a call to [fetch_access_token] on a client whose stored verifier is
    absent, made without a verifier argument, fails with the [OAuthError] of
    type [missing_verifier]; it does not return a token. *)
Theorem fetch_access_token_without_verifier url kwargs c :
  ClientAuth.verifier (auth c) = None ->
  fst (fetch_access_token url None kwargs c)
  = Raise (OAuthError "missing_verifier" missing_verifier_description).
Proof.
  intros Hnone.
  rewrite fetch_access_token_stops; [reflexivity | reflexivity |].
  rewrite Hnone. reflexivity.
Qed.

(** C2: after a call to [fetch_access_token] that returns, the client holds
    no verifier, whether the verifier came as an argument or was stored
    already. *)
Theorem fetch_access_token_clears_verifier url v kwargs c tok c' :
  fetch_access_token url v kwargs c = (Ok tok, c') ->
  ClientAuth.verifier (auth c') = None.
Proof.
  intros Hrun.
  destruct (truthy (ClientAuth.verifier (auth (with_argument v c)))) eqn:Hcheck.
  - rewrite fetch_access_token_proceeds in Hrun by exact Hcheck.
    destruct (_fetch_token url kwargs (with_argument v c)) as [[tok0|e] c0].
    + injection Hrun as _ <-. reflexivity.
    + discriminate.
  - rewrite truthy_with_argument in Hcheck.
    apply orb_false_elim in Hcheck as [Hv Hs].
    rewrite fetch_access_token_stops in Hrun by assumption. discriminate.
Qed.

(** C8: when [fetch_access_token] fails with [missing_verifier], no request
    has been handed to the transport, and the stored token credentials and
    verifier are what they were before the call. The collaborators are taken
    not to raise that error themselves. *)
Theorem missing_verifier_leaves_client_untouched url v kwargs c e c' :
  (forall c0 u k, not_missing_verifier (transport c0 u k)) ->
  (forall b, not_missing_verifier (to_unicode b)) ->
  (forall s t, not_missing_verifier (parse_response_token s t)) ->
  fetch_access_token url v kwargs c = (Raise e, c') ->
  is_missing_verifier e = true ->
  requests c' = requests c /\ token c' = token c /\ auth c' = auth c.
Proof.
  intros Htr Hun Hpa Hrun He.
  destruct (truthy (ClientAuth.verifier (auth (with_argument v c)))) eqn:Hcheck.
  - exfalso.
    rewrite fetch_access_token_proceeds in Hrun by exact Hcheck.
    destruct (_fetch_token url kwargs (with_argument v c)) as [[tok0|e0] c0] eqn:Hft.
    + discriminate.
    + injection Hrun as -> ->.
      apply _fetch_token_raises in Hft as [Ht | [[b Hb] | [[s [t Hp]] | [tok ->]]]].
      * specialize (Htr (with_argument v c) url kwargs). rewrite Ht in Htr.
        simpl in Htr. congruence.
      * specialize (Hun b). rewrite Hb in Hun. simpl in Hun. congruence.
      * specialize (Hpa s t). rewrite Hp in Hpa. simpl in Hpa. congruence.
      * discriminate He.
  - rewrite truthy_with_argument in Hcheck.
    apply orb_false_elim in Hcheck as [Hv Hs].
    rewrite fetch_access_token_stops in Hrun by assumption.
    injection Hrun as _ <-. auto.
Qed.

(** C9: an empty string passed as the verifier counts as no verifier. The
    call behaves, in its outcome and in what it leaves in the client, as the
    call without the argument; so the empty string is not stored, and when no
    non-empty verifier is stored the call fails with [missing_verifier]. *)
Theorem empty_verifier_is_no_verifier url kwargs c :
  fetch_access_token url (Some "") kwargs c = fetch_access_token url None kwargs c /\
  (truthy (ClientAuth.verifier (auth c)) = false ->
   fetch_access_token url (Some "") kwargs c
   = (Raise (OAuthError "missing_verifier" missing_verifier_description), c)).
Proof.
  split.
  - reflexivity.
  - intros Hs. apply fetch_access_token_stops; [reflexivity | exact Hs].
Qed.

End HandshakeClaims.

(** The parser modelled from the spec returns only what the form decoder
    produced, and only with both required fields. *)
Lemma parse_response_token_returns status text tok :
  TokenResponse.parse_response_token status text = Ok tok ->
  exists kvs,
    TokenResponse.url_decode text = Some kvs /\
    tok = TokenResponse.dict kvs /\
    is_Some (tok !! "oauth_token") /\
    is_Some (tok !! "oauth_token_secret").
Proof.
  unfold TokenResponse.parse_response_token.
  destruct (negb _); [discriminate|].
  destruct (TokenResponse.url_decode text) as [kvs|]; [|discriminate].
  destruct (_ || _); [discriminate|].
  destruct (TokenResponse.has "oauth_token" _ && _) eqn:Hreq; [|discriminate].
  intros [= <-]. exists kvs.
  apply andb_prop in Hreq as [H1 H2].
  unfold TokenResponse.has in H1, H2.
  repeat split.
  - destruct (TokenResponse.dict kvs !! "oauth_token"); [eauto | discriminate].
  - destruct (TokenResponse.dict kvs !! "oauth_token_secret"); [eauto | discriminate].
Qed.

(** It raises [RemoteOAuthError] and [MissingToken] only. *)
Lemma parse_response_token_not_missing_verifier status text :
  not_missing_verifier (TokenResponse.parse_response_token status text).
Proof.
  unfold TokenResponse.parse_response_token, not_missing_verifier.
  destruct (negb _); [reflexivity|].
  destruct (TokenResponse.url_decode text) as [kvs|]; [|reflexivity].
  destruct (_ || _); [reflexivity|].
  destruct (_ && _); [exact I | reflexivity].
Qed.

(** C3: when [fetch_access_token] returns, the body of the response was
    parsed as a form-encoded token with [oauth_token] and
    [oauth_token_secret]; the token credentials the client now stores are
    those of the parsed token, its identifier and its secret, in place of
    the ones held before; and the parsed token is the dict returned. *)
Theorem fetch_access_token_stores_parsed_token
    (transport : Client -> string -> Kwargs -> result Response.t)
    (to_unicode : list Byte.byte -> result string)
    (missing_token_message : Token -> string)
    url v kwargs c tok c' :
  AsyncOAuth1Client.fetch_access_token transport to_unicode
    TokenResponse.parse_response_token missing_token_message
    url v kwargs c = (Ok tok, c') ->
  exists resp text kvs id secret,
    transport (with_argument v c) url kwargs = Ok resp /\
    to_unicode (Response.content resp) = Ok text /\
    TokenResponse.url_decode text = Some kvs /\
    tok = TokenResponse.dict kvs /\
    tok !! "oauth_token" = Some id /\
    tok !! "oauth_token_secret" = Some secret /\
    token c' = (Some id, Some secret).
Proof.
  intros Hrun.
  destruct (truthy (ClientAuth.verifier (auth (with_argument v c)))) eqn:Hcheck.
  - rewrite fetch_access_token_proceeds in Hrun by exact Hcheck.
    destruct (AsyncOAuth1Client._fetch_token _ _ _ _ url kwargs (with_argument v c))
      as [[tok0|e] c0] eqn:Hft; [|discriminate].
    injection Hrun as -> <-.
    apply _fetch_token_returns in Hft as (resp & text & Ht & Hu & Hp & _ & ->).
    apply parse_response_token_returns in Hp as (kvs & Hd & Htok & [id H1] & [secret H2]).
    exists resp, text, kvs, id, secret.
    repeat split; try assumption.
    unfold token, with_token, store_token. simpl. rewrite H1, H2. reflexivity.
  - rewrite truthy_with_argument in Hcheck.
    apply orb_false_elim in Hcheck as [Hv Hs].
    rewrite fetch_access_token_stops in Hrun by assumption. discriminate.
Qed.

Lemma fetch_access_token_without_verifier_witness :
  ClientAuth.verifier (auth Sample.fresh_client) = None /\
  fst (AsyncOAuth1Client.fetch_access_token
         (Sample.constant_transport Sample.access_token_response)
         Sample.to_unicode TokenResponse.parse_response_token
         Sample.missing_token_message
         "https://ex.com/access_token" None ∅ Sample.fresh_client)
  = Raise (OAuthError "missing_verifier" missing_verifier_description).
Proof.
  split; [reflexivity|].
  apply fetch_access_token_without_verifier. reflexivity.
Defined.

(** The last leg of the spec's end-to-end scenario: verifier [v1], an
    endpoint answering [oauth_token=at&oauth_token_secret=ats]. *)
Lemma sample_fetch_access_token :
  AsyncOAuth1Client.fetch_access_token
    (Sample.constant_transport Sample.access_token_response)
    Sample.to_unicode TokenResponse.parse_response_token
         Sample.missing_token_message
    "https://ex.com/access_token" (Some "v1") ∅ Sample.fresh_client
  = (Ok Sample.access_token, Sample.authorized_client).
Proof. vm_compute. reflexivity. Qed.

Lemma fetch_access_token_clears_verifier_witness :
  AsyncOAuth1Client.fetch_access_token
    (Sample.constant_transport Sample.access_token_response)
    Sample.to_unicode TokenResponse.parse_response_token
         Sample.missing_token_message
    "https://ex.com/access_token" (Some "v1") ∅ Sample.fresh_client
  = (Ok Sample.access_token, Sample.authorized_client) /\
  ClientAuth.verifier (auth Sample.authorized_client) = None.
Proof.
  split; [exact sample_fetch_access_token|].
  exact (fetch_access_token_clears_verifier _ _ _ _ _ _ _ _ _ _
           sample_fetch_access_token).
Defined.

(** The same leg on the client that holds the request token [rt]: the
    access token takes its place. *)
Lemma sample_exchange :
  AsyncOAuth1Client.fetch_access_token
    (Sample.constant_transport Sample.access_token_response)
    Sample.to_unicode TokenResponse.parse_response_token
    Sample.missing_token_message
    "https://ex.com/access_token" (Some "v1") ∅ Sample.request_token_client
  = (Ok Sample.access_token,
     set_verifier None
       (with_token Sample.access_token
          (log_request "https://ex.com/access_token" ∅
             (set_verifier (Some "v1") Sample.request_token_client)))).
Proof. vm_compute. reflexivity. Qed.

Lemma sample_exchange_credentials :
  token (set_verifier None
           (with_token Sample.access_token
              (log_request "https://ex.com/access_token" ∅
                 (set_verifier (Some "v1") Sample.request_token_client))))
  = (Some "at", Some "ats").
Proof. reflexivity. Qed.

Lemma fetch_access_token_stores_parsed_token_witness :
  exists resp text kvs id secret,
    Sample.constant_transport Sample.access_token_response
      (with_argument (Some "v1") Sample.request_token_client)
      "https://ex.com/access_token" ∅ = Ok resp /\
    Sample.to_unicode (Response.content resp) = Ok text /\
    TokenResponse.url_decode text = Some kvs /\
    Sample.access_token = TokenResponse.dict kvs /\
    Sample.access_token !! "oauth_token" = Some id /\
    Sample.access_token !! "oauth_token_secret" = Some secret /\
    token (set_verifier None
             (with_token Sample.access_token
                (log_request "https://ex.com/access_token" ∅
                   (set_verifier (Some "v1") Sample.request_token_client))))
    = (Some id, Some secret).
Proof.
  exact (fetch_access_token_stores_parsed_token
           (Sample.constant_transport Sample.access_token_response)
           Sample.to_unicode Sample.missing_token_message
           "https://ex.com/access_token" (Some "v1") ∅
           Sample.request_token_client _ _ sample_exchange).
Defined.

Lemma missing_verifier_leaves_client_untouched_witness :
  AsyncOAuth1Client.fetch_access_token
    (Sample.constant_transport Sample.access_token_response)
    Sample.to_unicode TokenResponse.parse_response_token
         Sample.missing_token_message
    "https://ex.com/access_token" None ∅ Sample.fresh_client
  = (Raise (OAuthError "missing_verifier" missing_verifier_description),
     Sample.fresh_client) /\
  is_missing_verifier
    (OAuthError "missing_verifier" missing_verifier_description) = true /\
  requests Sample.fresh_client = requests Sample.fresh_client /\
  token Sample.fresh_client = token Sample.fresh_client /\
  auth Sample.fresh_client = auth Sample.fresh_client.
Proof.
  split; [reflexivity|]. split; [reflexivity|].
  apply (missing_verifier_leaves_client_untouched
           (Sample.constant_transport Sample.access_token_response)
           Sample.to_unicode TokenResponse.parse_response_token
         Sample.missing_token_message
           "https://ex.com/access_token" None ∅ Sample.fresh_client
           (OAuthError "missing_verifier" missing_verifier_description)
           Sample.fresh_client).
  - intros c0 u k. exact I.
  - intros b. exact I.
  - exact parse_response_token_not_missing_verifier.
  - reflexivity.
  - reflexivity.
Defined.

Lemma empty_verifier_is_no_verifier_witness :
  truthy (ClientAuth.verifier (auth Sample.fresh_client)) = false /\
  AsyncOAuth1Client.fetch_access_token
    Sample.failing_transport Sample.to_unicode
    TokenResponse.parse_response_token
         Sample.missing_token_message
    "https://ex.com/access_token" (Some "") ∅ Sample.fresh_client
  = (Raise (OAuthError "missing_verifier" missing_verifier_description),
     Sample.fresh_client).
Proof.
  split; [reflexivity|].
  apply (proj2 (empty_verifier_is_no_verifier _ _ _ _ _ _ _)). reflexivity.
Defined.

(** ** The request signer *)

(** Header names that agree up to case select the same fields. *)
Lemma same_key_trans k k' x :
  same_key k' k = true -> same_key k' x = same_key k x.
Proof.
  unfold same_key. intros H. apply String.eqb_eq in H. rewrite H. reflexivity.
Qed.

Lemma same_key_refl k : same_key k k = true.
Proof. unfold same_key. apply String.eqb_refl. Qed.

Lemma get_list_remove_key k h : get_list k (remove_key k h) = [].
Proof.
  unfold get_list, remove_key.
  induction h as [|[k' v'] h IH]; simpl; [reflexivity|].
  destruct (same_key k k') eqn:E; simpl; [exact IH|].
  rewrite E. exact IH.
Qed.

Lemma get_list_replace_first k v h :
  existsb (fun kv => same_key k (fst kv)) h = true ->
  get_list k (replace_first k v h) = [v].
Proof.
  induction h as [|[k' v'] h IH]; simpl; [discriminate|].
  destruct (same_key k k') eqn:E; simpl.
  - intros _. unfold get_list. simpl. rewrite same_key_refl. simpl.
    f_equal. apply get_list_remove_key.
  - intros H. unfold get_list in *. simpl. rewrite E. apply IH, H.
Qed.

Lemma get_list_append k v h :
  existsb (fun kv => same_key k (fst kv)) h = false ->
  get_list k (h ++ [(k, v)]) = [v].
Proof.
  unfold get_list.
  induction h as [|[k' v'] h IH]; simpl.
  - intros _. rewrite same_key_refl. reflexivity.
  - destruct (same_key k k') eqn:E; simpl; [discriminate|]. exact IH.
Qed.

(** After [headers[k] = v], the header [k], under any spelling of its name,
    has the one value [v]. *)
Lemma get_list_setitem k' k v h :
  same_key k' k = true -> get_list k' (setitem k v h) = [v].
Proof.
  intros Hk.
  assert (Hsame : get_list k' (setitem k v h) = get_list k (setitem k v h)).
  { unfold get_list. f_equal. apply List.filter_ext.
    intros [x y]. simpl. apply same_key_trans, Hk. }
  rewrite Hsame. unfold setitem.
  destruct (existsb _ h) eqn:E.
  - apply get_list_replace_first, E.
  - apply get_list_append, E.
Qed.

Lemma to_uint_not_Nil n : Nat.to_uint n <> Nil.
Proof.
  intros H. pose proof (Unsigned.of_to n) as Hn.
  rewrite H in Hn. simpl in Hn. subst n. discriminate H.
Qed.

(** [int(str(n)) == n] *)
Lemma int_str n : int (str n) = Some n.
Proof.
  unfold int, str. rewrite NilZero.usu by apply to_uint_not_Nil.
  simpl. f_equal. apply Unsigned.of_to.
Qed.

(** A signer that fails makes the flow raise before it yields: nothing goes
    out. *)
Example sample_flow_unsigned :
  drive (fun _ => Sample.access_token_response)
        (OAuth1Auth.auth_flow Sample.failing_prepare Sample.form_request)
  = ([], Raise (MissingCredential "client_secret")).
Proof. reflexivity. Qed.

Section SignerClaims.

Variable prepare :
  string -> string -> Headers -> list Byte.byte ->
  result (string * Headers * list Byte.byte).

Local Abbreviation auth_flow := (OAuth1Auth.auth_flow prepare).

(** The flow is one of two shapes: it raises what the signer raised, or it
    yields the request built from what the signer returned and then
    returns. *)
Lemma auth_flow_shape request :
  match prepare (Request.method request) (Request.url request)
                (Request.headers request) (Request.content request) with
  | Raise e => auth_flow request = Throw e
  | Ok (url, headers, body) =>
      auth_flow request
      = Yield (build_request url
                 (setitem "Content-Length" (str (length body)) headers)
                 body request)
              (fun _ => Return tt)
  end.
Proof.
  unfold OAuth1Auth.auth_flow.
  destruct (prepare _ _ _ _) as [[[url headers] body]|e]; reflexivity.
Qed.

(** C6: for a request the signer signs, [auth_flow] yields one request, the
    signed one, and returns when it is resumed, whatever the response: under
    any pipeline exactly that request goes out. The flow has no access to
    the transport, and what it does never depends on the responses. *)
Theorem auth_flow_yields_once request :
  (forall send send', drive send (auth_flow request) = drive send' (auth_flow request)) /\
  (forall send, length (fst (drive send (auth_flow request))) <= 1) /\
  (forall url headers body,
     prepare (Request.method request) (Request.url request)
             (Request.headers request) (Request.content request)
     = Ok (url, headers, body) ->
     let signed :=
       build_request url (setitem "Content-Length" (str (length body)) headers)
         body request in
     auth_flow request = Yield signed (fun _ => Return tt) /\
     forall send, drive send (auth_flow request) = ([signed], Ok tt)).
Proof.
  pose proof (auth_flow_shape request) as Hshape.
  destruct (prepare _ _ _ _) as [[[url headers] body]|e] eqn:Hp.
  - rewrite Hshape. repeat split.
    + simpl. lia.
    + injection H as <- <- <-. reflexivity.
    + injection H as <- <- <-. reflexivity.
  - rewrite Hshape. repeat split.
    + simpl. lia.
    + discriminate.
    + discriminate.
Qed.

(** C7: the request [auth_flow] yields has one [Content-Length] header,
    under any spelling of the name, and its value is the length of the body
    the request carries, which is the body the signer returned: a length
    the request came with is gone. *)
Theorem signed_request_content_length request url headers body signed k :
  prepare (Request.method request) (Request.url request)
          (Request.headers request) (Request.content request)
  = Ok (url, headers, body) ->
  auth_flow request = Yield signed k ->
  Request.content signed = body /\
  (forall name, same_key name "Content-Length" = true ->
     get_list name (Request.headers signed)
     = [str (length (Request.content signed))]) /\
  int (str (length (Request.content signed))) = Some (length body).
Proof.
  intros Hp Hflow.
  pose proof (auth_flow_shape request) as Hshape.
  rewrite Hp in Hshape. rewrite Hshape in Hflow.
  injection Hflow as <- _. simpl.
  split; [reflexivity|]. split.
  - intros name Hname. apply get_list_setitem, Hname.
  - apply int_str.
Qed.

End SignerClaims.

Lemma auth_flow_yields_once_witness :
  let signed :=
    build_request "https://ex.com/resource"
      (setitem "Content-Length" "3"
         (setitem "Authorization" "OAuth oauth_signature=sig"
            (Request.headers Sample.form_request)))
      (list_byte_of_string "a=b") Sample.form_request in
  OAuth1Auth.auth_flow Sample.header_prepare Sample.form_request
  = Yield signed (fun _ => Return tt) /\
  forall send,
    drive send (OAuth1Auth.auth_flow Sample.header_prepare Sample.form_request)
    = ([signed], Ok tt).
Proof.
  exact (proj2 (proj2 (auth_flow_yields_once Sample.header_prepare
                         Sample.form_request))
           "https://ex.com/resource"
           (setitem "Authorization" "OAuth oauth_signature=sig"
              (Request.headers Sample.form_request))
           (list_byte_of_string "a=b") eq_refl).
Defined.

(** A request the signer refuses, here for a signature method that does
    not exist, is not signed: the flow raises, and yields no request at
    all. *)
Lemma auth_flow_yields_once_counterexample :
  drive (fun _ => Sample.access_token_response)
        (OAuth1Auth.auth_flow Sample.unknown_method_prepare Sample.form_request)
  = ([], Raise (InvalidSignatureMethod "Invalid signature method.")) /\
  ~ (exists signed k,
       OAuth1Auth.auth_flow Sample.unknown_method_prepare Sample.form_request
       = Yield signed k).
Proof.
  split; [reflexivity|].
  intros (signed & k & H). discriminate H.
Qed.

Lemma signed_request_content_length_witness :
  get_list "content-length"
    (Request.headers
       (build_request "https://ex.com/resource"
          (setitem "Content-Length" "23" (Request.headers Sample.form_request))
          (list_byte_of_string "a=b&oauth_signature=sig") Sample.form_request))
  = ["23"].
Proof.
  refine (proj1 (proj2 (signed_request_content_length Sample.body_prepare
            Sample.form_request _ _ _ _ (fun _ => Return tt) _ _))
            "content-length" _); reflexivity.
Defined.

(** ** The constructors *)

Example sample_async_init :
  AsyncOAuth1Client.__init__ Sample.extract_client_kwargs Sample.args Sample.app_kwargs
  = {| httpx_init :=
         <["verify" := VBool false]>
           (<["app" := VObject 1]> {["timeout" := VInt 5]});
       oauth1_session := SessionNone;
       oauth1_args := Sample.args;
       oauth1_kwargs := {["realm" := VStr "r"]} |}.
Proof. vm_compute. reflexivity. Qed.

Example sample_init :
  OAuth1Client.__init__ Sample.extract_client_kwargs Sample.args Sample.app_kwargs
  = {| httpx_init :=
         <["verify" := VBool false]>
           (<["transport" := VWSGITransport (VObject 1)]> {["timeout" := VInt 5]});
       oauth1_session := SessionSelf;
       oauth1_args := Sample.args;
       oauth1_kwargs := {["realm" := VStr "r"]} |}.
Proof. vm_compute. reflexivity. Qed.

Example sample_init_strict :
  httpx_init (OAuth1Client.__init__ Sample.extract_client_kwargs Sample.args
                Sample.strict_kwargs)
  = {["verify" := VBool false]}.
Proof. vm_compute. reflexivity. Qed.

Section ConstructorClaims.

Variable extract_client_kwargs : Kwargs -> Kwargs * Kwargs.

Local Abbreviation sync_init := (OAuth1Client.__init__ extract_client_kwargs).
Local Abbreviation async_init := (AsyncOAuth1Client.__init__ extract_client_kwargs).

(** What the asynchronous constructor hands to [httpx.AsyncClient]. *)
Lemma async_httpx_init args kwargs :
  httpx_init (async_init args kwargs)
  = <["verify" := VBool false]> (fst (extract_client_kwargs kwargs)).
Proof.
  unfold AsyncOAuth1Client.__init__.
  destruct (extract_client_kwargs kwargs) as [ck rest]. reflexivity.
Qed.

(** What the blocking constructor hands to [httpx.Client]. *)
Lemma sync_httpx_init args kwargs :
  httpx_init (sync_init args kwargs)
  = let ck := <["verify" := VBool false]> (fst (extract_client_kwargs kwargs)) in
    match ck !! "app" with
    | None | Some VNone => delete "app" ck
    | Some app => <["transport" := VWSGITransport app]> (delete "app" ck)
    end.
Proof.
  unfold OAuth1Client.__init__, OAuth1Client.pop.
  destruct (extract_client_kwargs kwargs) as [ck rest]. simpl.
  destruct (<["verify" := VBool false]> ck !! "app") as [[]|]; reflexivity.
Qed.

Lemma sync_verify args kwargs :
  httpx_init (sync_init args kwargs) !! "verify" = Some (VBool false).
Proof.
  rewrite sync_httpx_init. cbv zeta.
  destruct (<["verify" := VBool false]> _ !! "app") as [[]|];
    repeat (rewrite lookup_insert_ne by done);
    rewrite lookup_delete_ne by done; apply lookup_insert_eq.
Qed.

(** C4: the blocking constructor sets up the HTTP client with certificate
    verification off whenever the caller does not ask for strict
    verification, by leaving [verify] out or by passing [False]. *)
Theorem OAuth1Client_verification_off_by_default args kwargs :
  kwargs !! "verify" = None \/ kwargs !! "verify" = Some (VBool false) ->
  httpx_init (sync_init args kwargs) !! "verify" = Some (VBool false).
Proof. intros _. apply sync_verify. Qed.

(** C5: whatever the keyword arguments, [verify=True] among them or not,
    both constructors initialise the HTTP client with [verify] set to
    [False]: the assignment overwrites what the caller supplied, in the
    asynchronous client as in the blocking one. *)
Theorem verify_is_always_False args kwargs :
  httpx_init (sync_init args kwargs) !! "verify" = Some (VBool false) /\
  httpx_init (async_init args kwargs) !! "verify" = Some (VBool false) /\
  httpx_init (async_init args kwargs)
  = <["verify" := VBool false]> (fst (extract_client_kwargs kwargs)).
Proof.
  split; [apply sync_verify|].
  rewrite async_httpx_init. split; [apply lookup_insert_eq | reflexivity].
Qed.


End ConstructorClaims.

Lemma OAuth1Client_verification_off_by_default_witness :
  (Sample.app_kwargs !! "verify" = None \/
   Sample.app_kwargs !! "verify" = Some (VBool false)) /\
  httpx_init (OAuth1Client.__init__ Sample.extract_client_kwargs Sample.args
                Sample.app_kwargs) !! "verify" = Some (VBool false).
Proof.
  assert (H : Sample.app_kwargs !! "verify" = None \/
              Sample.app_kwargs !! "verify" = Some (VBool false))
    by (left; reflexivity).
  split; [exact H|].
  exact (OAuth1Client_verification_off_by_default
           Sample.extract_client_kwargs Sample.args Sample.app_kwargs H).
Defined.


(** * Further properties *)

(** ** The access-token leg, step by step *)

Section HandshakeRuns.

Variable transport : Client -> string -> Kwargs -> result Response.t.
Variable to_unicode : list Byte.byte -> result string.
Variable parse_response_token : Z -> string -> result Token.
Variable missing_token_message : Token -> string.

Local Abbreviation fetch_access_token :=
  (AsyncOAuth1Client.fetch_access_token transport to_unicode parse_response_token
     missing_token_message).
Local Abbreviation _fetch_token :=
  (AsyncOAuth1Client._fetch_token transport to_unicode parse_response_token
     missing_token_message).

(** [_fetch_token] spelled out over the outcomes of its collaborators and
    of the token setter. *)
Lemma _fetch_token_run url kwargs c :
  _fetch_token url kwargs c
  = match transport c url kwargs with
    | Raise e => (Raise e, log_request url kwargs c)
    | Ok resp =>
        match to_unicode (Response.content resp) with
        | Raise e => (Raise e, log_request url kwargs c)
        | Ok text =>
            match parse_response_token (Response.status_code resp) text with
            | Raise e => (Raise e, log_request url kwargs c)
            | Ok tok =>
                match tok !! "oauth_token" with
                | Some _ => (Ok tok, with_token tok (log_request url kwargs c))
                | None =>
                    (Raise (OAuthError "missing_token" (missing_token_message tok)),
                     log_request url kwargs c)
                end
            end
        end
    end.
Proof.
  run_method.
  destruct (transport c url kwargs) as [resp|e]; simpl; [|reflexivity].
  destruct (to_unicode _) as [text|e]; simpl; [|reflexivity].
  destruct (parse_response_token _ _) as [tok|e]; simpl; [|reflexivity].
  destruct (tok !! "oauth_token"); reflexivity.
Qed.

(** A raising [_fetch_token] has logged its request and done nothing else. *)
Lemma _fetch_token_raises_state url kwargs c e c' :
  _fetch_token url kwargs c = (Raise e, c') ->
  c' = log_request url kwargs c.
Proof.
  rewrite _fetch_token_run.
  destruct (transport c url kwargs) as [resp|e0]; [|congruence].
  destruct (to_unicode _) as [text|e1]; [|congruence].
  destruct (parse_response_token _ _) as [tok|e2]; [|congruence].
  destruct (tok !! "oauth_token"); congruence.
Qed.

(** A returning call leaves a client whose verifier was just cleared. *)
Lemma returning_fetch_has_cleared url v kwargs c tok c' :
  fetch_access_token url v kwargs c = (Ok tok, c') ->
  exists c0, c' = set_verifier None c0.
Proof.
  intros Hrun.
  destruct (truthy (ClientAuth.verifier (auth (with_argument v c)))) eqn:Hcheck.
  - rewrite fetch_access_token_proceeds in Hrun by exact Hcheck.
    destruct (_fetch_token url kwargs (with_argument v c)) as [[tok0|e] c0];
      [|discriminate].
    injection Hrun as _ <-. exists c0. reflexivity.
  - rewrite truthy_with_argument in Hcheck.
    apply orb_false_elim in Hcheck as [Hv Hs].
    rewrite fetch_access_token_stops in Hrun by assumption. discriminate.
Qed.

(** X1: with a verifier at hand, in the argument or in the client, every
    collaborator answering, and an [oauth_token] in the parsed token, the
    call returns the parsed token; the client then stores the token's
    identifier, its secret if it has one, holds no verifier (not even one the
    token carried), and has one more request in its log. *)
Theorem fetch_access_token_returns url v kwargs c resp text tok id :
  truthy v || truthy (ClientAuth.verifier (auth c)) = true ->
  transport (with_argument v c) url kwargs = Ok resp ->
  to_unicode (Response.content resp) = Ok text ->
  parse_response_token (Response.status_code resp) text = Ok tok ->
  tok !! "oauth_token" = Some id ->
  fetch_access_token url v kwargs c
  = (Ok tok,
     {| auth := {| ClientAuth.token := Some id;
                   ClientAuth.token_secret :=
                     match tok !! "oauth_token_secret" with
                     | Some secret => Some secret
                     | None => ClientAuth.token_secret (auth c)
                     end;
                   ClientAuth.verifier := None |};
        requests := (requests c ++ [(url, kwargs)])%list |}).
Proof.
  intros Hav Ht Hu Hp Hid.
  rewrite <- truthy_with_argument in Hav.
  rewrite fetch_access_token_proceeds by exact Hav.
  rewrite _fetch_token_run, Ht, Hu, Hp, Hid.
  unfold with_argument, set_verifier, with_token, store_token. simpl.
  rewrite Hid. destruct (truthy v); reflexivity.
Qed.

(** X2: a true verifier argument is stored before anything else happens:
    the call is the call without the argument on a client that already
    holds that verifier, so the argument takes the place of whatever was
    stored. *)
Theorem verifier_argument_is_stored_first url v kwargs c :
  truthy v = true ->
  fetch_access_token url v kwargs c
  = fetch_access_token url None kwargs (set_verifier v c).
Proof.
  intros Hv.
  unfold AsyncOAuth1Client.fetch_access_token, bind, modify, ret.
  rewrite Hv. reflexivity.
Qed.

(** X3: with a verifier at hand, the outcome of the call is the outcome of
    the chain transport, decoder, parser, token setter: the first
    collaborator to raise decides the exception, which comes out as it was
    raised; a parsed token without [oauth_token] is refused with
    [missing_token]; any other parsed token comes out as it was returned. *)
Theorem fetch_access_token_outcome url v kwargs c :
  truthy v || truthy (ClientAuth.verifier (auth c)) = true ->
  fst (fetch_access_token url v kwargs c)
  = match transport (with_argument v c) url kwargs with
    | Raise e => Raise e
    | Ok resp =>
        match to_unicode (Response.content resp) with
        | Raise e => Raise e
        | Ok text =>
            match parse_response_token (Response.status_code resp) text with
            | Raise e => Raise e
            | Ok tok =>
                match tok !! "oauth_token" with
                | Some _ => Ok tok
                | None =>
                    Raise (OAuthError "missing_token" (missing_token_message tok))
                end
            end
        end
    end.
Proof.
  intros Hav. rewrite <- truthy_with_argument in Hav.
  rewrite fetch_access_token_proceeds by exact Hav.
  rewrite _fetch_token_run.
  destruct (transport _ url kwargs) as [resp|e]; [|reflexivity].
  destruct (to_unicode _) as [text|e]; [|reflexivity].
  destruct (parse_response_token _ _) as [tok|e]; [|reflexivity].
  destruct (tok !! "oauth_token"); reflexivity.
Qed.

(** X4: a call that fails after the verifier check leaves the verifier in
    place, the one of the argument if a true one was passed and the stored
    one otherwise, keeps the stored token, and has logged its one
    request. *)
Theorem failed_fetch_keeps_verifier url v kwargs c e c' :
  truthy v || truthy (ClientAuth.verifier (auth c)) = true ->
  fetch_access_token url v kwargs c = (Raise e, c') ->
  ClientAuth.verifier (auth c')
  = (if truthy v then v else ClientAuth.verifier (auth c)) /\
  token c' = token c /\
  requests c' = (requests c ++ [(url, kwargs)])%list.
Proof.
  intros Hav Hrun. rewrite <- truthy_with_argument in Hav.
  rewrite fetch_access_token_proceeds in Hrun by exact Hav.
  assert (Hc : c' = log_request url kwargs (with_argument v c)).
  { destruct (_fetch_token url kwargs (with_argument v c)) as [[tok|e0] c0] eqn:Hft.
    - discriminate.
    - injection Hrun as _ <-. apply (_fetch_token_raises_state _ _ _ _ _ Hft). }
  subst c'. unfold with_argument. destruct (truthy v); auto.
Qed.

(** X5: one call hands at most one request to the transport: exactly one,
    for the URL and keyword arguments of the call, when a verifier is at
    hand, and none otherwise; whether the exchange then succeeds or fails
    makes no difference. *)
Theorem fetch_access_token_requests url v kwargs c :
  requests (snd (fetch_access_token url v kwargs c))
  = if truthy v || truthy (ClientAuth.verifier (auth c))
    then (requests c ++ [(url, kwargs)])%list
    else requests c.
Proof.
  destruct (truthy v || truthy (ClientAuth.verifier (auth c))) eqn:Hav.
  - pose proof Hav as Hav'. rewrite <- truthy_with_argument in Hav'.
    rewrite fetch_access_token_proceeds by exact Hav'.
    pose proof (_fetch_token_requests transport to_unicode parse_response_token
                  missing_token_message
                  url kwargs (with_argument v c)) as Hreq.
    destruct (_fetch_token url kwargs (with_argument v c)) as [[tok|e] c0];
      simpl in *; rewrite Hreq; unfold with_argument;
      destruct (truthy v); reflexivity.
  - apply orb_false_elim in Hav as [Hv Hs].
    rewrite fetch_access_token_stops by assumption. reflexivity.
Qed.

(** X6: the verifier is spent by a successful call: a second call right
    after it, without a true verifier argument, fails with
    [missing_verifier] and sends nothing. *)
Theorem verifier_cannot_be_replayed url v kwargs c tok c' url2 v2 kwargs2 :
  fetch_access_token url v kwargs c = (Ok tok, c') ->
  truthy v2 = false ->
  fetch_access_token url2 v2 kwargs2 c'
  = (Raise (OAuthError "missing_verifier" missing_verifier_description), c').
Proof.
  intros Hrun Hv2.
  apply returning_fetch_has_cleared in Hrun as [c0 ->].
  apply fetch_access_token_stops; [exact Hv2 | reflexivity].
Qed.

(** X7: a call that was given a true verifier and failed in the exchange can
    be tried again without the argument: the verifier is still in the
    client, so the second call behaves as if it had been passed again, and
    sends its request. *)
Theorem failed_fetch_can_be_retried url v kwargs c e c' url2 kwargs2 :
  truthy v = true ->
  fetch_access_token url v kwargs c = (Raise e, c') ->
  fetch_access_token url2 None kwargs2 c' = fetch_access_token url2 v kwargs2 c' /\
  requests (snd (fetch_access_token url2 None kwargs2 c'))
  = (requests c' ++ [(url2, kwargs2)])%list.
Proof.
  intros Hv Hrun.
  assert (Hav : truthy (ClientAuth.verifier (auth (with_argument v c))) = true).
  { rewrite truthy_with_argument, Hv. reflexivity. }
  rewrite fetch_access_token_proceeds in Hrun by exact Hav.
  assert (Hc : c' = log_request url kwargs (set_verifier v c)).
  { unfold with_argument in *. rewrite Hv in *.
    destruct (_fetch_token url kwargs (set_verifier v c)) as [[tok|e0] c0] eqn:Hft.
    - discriminate.
    - injection Hrun as _ <-. apply (_fetch_token_raises_state _ _ _ _ _ Hft). }
  assert (Hstored : truthy (ClientAuth.verifier (auth (with_argument None c'))) = true).
  { subst c'. exact Hv. }
  split.
  - unfold AsyncOAuth1Client.fetch_access_token, bind, modify, ret.
    rewrite Hv. subst c'. reflexivity.
  - rewrite fetch_access_token_proceeds by exact Hstored.
    pose proof (_fetch_token_requests transport to_unicode parse_response_token
                  missing_token_message
                  url2 kwargs2 (with_argument None c')) as Hreq.
    destruct (_fetch_token url2 kwargs2 (with_argument None c')) as [[tok|e0] c0];
      simpl in *; exact Hreq.
Qed.

(** X8: [_fetch_token] changes the credentials only when it returns. When
    it raises, a token refused for want of [oauth_token] included, the
    signer is as it was. When it returns a token, the token has an
    [oauth_token], which is now the stored identifier, and a verifier in the
    token has taken the place of the stored one. *)
Theorem _fetch_token_state url kwargs c :
  match fst (_fetch_token url kwargs c) with
  | Raise _ => auth (snd (_fetch_token url kwargs c)) = auth c
  | Ok tok =>
      is_Some (tok !! "oauth_token") /\
      ClientAuth.token (auth (snd (_fetch_token url kwargs c)))
      = tok !! "oauth_token" /\
      ClientAuth.verifier (auth (snd (_fetch_token url kwargs c)))
      = match tok !! "oauth_verifier" with
        | Some verifier => Some verifier
        | None => ClientAuth.verifier (auth c)
        end
  end.
Proof.
  rewrite _fetch_token_run.
  destruct (transport c url kwargs) as [resp|e]; [|reflexivity].
  destruct (to_unicode _) as [text|e]; [|reflexivity].
  destruct (parse_response_token _ _) as [tok|e]; [|reflexivity].
  destruct (tok !! "oauth_token") as [id|] eqn:Hid; [|reflexivity].
  simpl. rewrite Hid. repeat split. eauto.
Qed.

End HandshakeRuns.

Lemma fetch_access_token_returns_witness :
  AsyncOAuth1Client.fetch_access_token
    (Sample.constant_transport Sample.access_token_response)
    Sample.to_unicode TokenResponse.parse_response_token
         Sample.missing_token_message
    "https://ex.com/access_token" (Some "v1") ∅ Sample.fresh_client
  = (Ok Sample.access_token, Sample.authorized_client).
Proof.
  refine (fetch_access_token_returns
            (Sample.constant_transport Sample.access_token_response)
            Sample.to_unicode TokenResponse.parse_response_token
         Sample.missing_token_message
            "https://ex.com/access_token" (Some "v1") ∅ Sample.fresh_client
            Sample.access_token_response
            "oauth_token=at&oauth_token_secret=ats" Sample.access_token "at"
            _ _ _ _ _).
  - reflexivity.
  - reflexivity.
  - reflexivity.
  - vm_compute. reflexivity.
  - reflexivity.
Defined.

Lemma verifier_argument_is_stored_first_witness :
  AsyncOAuth1Client.fetch_access_token
    (Sample.constant_transport Sample.access_token_response)
    Sample.to_unicode TokenResponse.parse_response_token
         Sample.missing_token_message
    "https://ex.com/access_token" (Some "v1") ∅ Sample.authorized_client
  = AsyncOAuth1Client.fetch_access_token
      (Sample.constant_transport Sample.access_token_response)
      Sample.to_unicode TokenResponse.parse_response_token
         Sample.missing_token_message
      "https://ex.com/access_token" None ∅
      (set_verifier (Some "v1") Sample.authorized_client).
Proof.
  apply verifier_argument_is_stored_first. reflexivity.
Defined.

Lemma fetch_access_token_outcome_witness :
  fst (AsyncOAuth1Client.fetch_access_token
         (Sample.constant_transport Sample.foo_response) Sample.to_unicode
         Sample.lenient_parse Sample.missing_token_message
         "https://ex.com/access_token" (Some "v1") ∅
         Sample.request_token_client)
  = Raise (OAuthError "missing_token" "oauth_token is missing").
Proof.
  exact (fetch_access_token_outcome
           (Sample.constant_transport Sample.foo_response) Sample.to_unicode
           Sample.lenient_parse Sample.missing_token_message
           "https://ex.com/access_token" (Some "v1") ∅
           Sample.request_token_client eq_refl).
Defined.

(** An answer without token, to the client that holds the request token:
    the call is refused, the request token and the verifier stay. *)
Lemma sample_refused_fetch :
  AsyncOAuth1Client.fetch_access_token
    (Sample.constant_transport Sample.foo_response) Sample.to_unicode
    Sample.lenient_parse Sample.missing_token_message
    "https://ex.com/access_token" (Some "v1") ∅ Sample.request_token_client
  = (Raise (OAuthError "missing_token" "oauth_token is missing"),
     {| auth := {| ClientAuth.token := Some "rt";
                   ClientAuth.token_secret := Some "rts";
                   ClientAuth.verifier := Some "v1" |};
        requests := [("https://ex.com/request_token", ∅);
                     ("https://ex.com/access_token", ∅)] |}).
Proof. vm_compute. reflexivity. Qed.

(** An answer that carries a verifier: [_fetch_token] stores it, and
    [fetch_access_token] clears it like any other. *)
Example sample_verifier_in_answer :
  auth (snd (AsyncOAuth1Client._fetch_token
               (Sample.constant_transport Sample.verifier_response)
               Sample.to_unicode TokenResponse.parse_response_token
               Sample.missing_token_message
               "https://ex.com/access_token" ∅
               (set_verifier (Some "v1") Sample.request_token_client)))
  = {| ClientAuth.token := Some "at";
       ClientAuth.token_secret := Some "ats";
       ClientAuth.verifier := Some "zzz" |} /\
  auth (snd (AsyncOAuth1Client.fetch_access_token
               (Sample.constant_transport Sample.verifier_response)
               Sample.to_unicode TokenResponse.parse_response_token
               Sample.missing_token_message
               "https://ex.com/access_token" (Some "v1") ∅
               Sample.request_token_client))
  = {| ClientAuth.token := Some "at";
       ClientAuth.token_secret := Some "ats";
       ClientAuth.verifier := None |}.
Proof. split; vm_compute; reflexivity. Qed.

(** The same exchange over a transport that is down. *)
Lemma sample_failed_fetch :
  AsyncOAuth1Client.fetch_access_token
    Sample.failing_transport Sample.to_unicode
    TokenResponse.parse_response_token
         Sample.missing_token_message
    "https://ex.com/access_token" (Some "v1") ∅ Sample.fresh_client
  = (Raise (TransportError "connection refused"),
     Sample.failed_client).
Proof. reflexivity. Qed.

Lemma failed_fetch_keeps_verifier_witness :
  ClientAuth.verifier (auth Sample.failed_client) = Some "v1" /\
  token Sample.failed_client = token Sample.fresh_client /\
  requests Sample.failed_client
  = (requests Sample.fresh_client ++ [("https://ex.com/access_token", ∅)])%list.
Proof.
  exact (failed_fetch_keeps_verifier
           Sample.failing_transport Sample.to_unicode
           TokenResponse.parse_response_token Sample.missing_token_message
           "https://ex.com/access_token" (Some "v1") ∅ Sample.fresh_client
           _ _ eq_refl sample_failed_fetch).
Defined.

Lemma verifier_cannot_be_replayed_witness :
  AsyncOAuth1Client.fetch_access_token
    (Sample.constant_transport Sample.access_token_response)
    Sample.to_unicode TokenResponse.parse_response_token
         Sample.missing_token_message
    "https://ex.com/access_token" None ∅ Sample.authorized_client
  = (Raise (OAuthError "missing_verifier" missing_verifier_description),
     Sample.authorized_client).
Proof.
  exact (verifier_cannot_be_replayed
           (Sample.constant_transport Sample.access_token_response)
           Sample.to_unicode TokenResponse.parse_response_token
         Sample.missing_token_message
           "https://ex.com/access_token" (Some "v1") ∅ Sample.fresh_client
           _ _ "https://ex.com/access_token" None ∅
           sample_fetch_access_token eq_refl).
Defined.

Lemma failed_fetch_can_be_retried_witness :
  requests
    (snd (AsyncOAuth1Client.fetch_access_token
            Sample.failing_transport Sample.to_unicode
            TokenResponse.parse_response_token
         Sample.missing_token_message
            "https://ex.com/access_token" None ∅
            Sample.failed_client))
  = [("https://ex.com/access_token", ∅); ("https://ex.com/access_token", ∅)].
Proof.
  exact (proj2 (failed_fetch_can_be_retried
                  Sample.failing_transport Sample.to_unicode
                  TokenResponse.parse_response_token
         Sample.missing_token_message
                  "https://ex.com/access_token" (Some "v1") ∅ Sample.fresh_client
                  _ _ "https://ex.com/access_token" ∅
                  eq_refl sample_failed_fetch)).
Defined.

(** ** The request signer, further *)

Lemma same_key_other name k x :
  same_key name k = false -> same_key k x = true -> same_key name x = false.
Proof.
  unfold same_key. intros Hn Hk. apply String.eqb_eq in Hk.
  rewrite <- Hk. exact Hn.
Qed.

Lemma remove_key_idem k h : remove_key k (remove_key k h) = remove_key k h.
Proof.
  unfold remove_key. induction h as [|[k' v'] h IH]; simpl; [reflexivity|].
  destruct (same_key k k') eqn:E; simpl; [exact IH|].
  rewrite E. simpl. f_equal. exact IH.
Qed.

Lemma remove_key_cons k k' v' h :
  remove_key k ((k', v') :: h)
  = if same_key k k' then remove_key k h else (k', v') :: remove_key k h.
Proof. unfold remove_key. simpl. destruct (same_key k k'); reflexivity. Qed.

(** Setting a header moves no other field. *)
Lemma remove_key_setitem k v h :
  remove_key k (setitem k v h) = remove_key k h.
Proof.
  unfold setitem. destruct (existsb _ h) eqn:Hex.
  - clear Hex. induction h as [|[k' v'] h IH]; [reflexivity|].
    rewrite (remove_key_cons k k' v' h). simpl.
    destruct (same_key k k') eqn:E; rewrite remove_key_cons.
    + rewrite same_key_refl. apply remove_key_idem.
    + rewrite E. f_equal. exact IH.
  - unfold remove_key. rewrite List.filter_app. simpl.
    rewrite same_key_refl. simpl. apply app_nil_r.
Qed.

Lemma get_list_remove_other name k h :
  same_key name k = false ->
  get_list name (remove_key k h) = get_list name h.
Proof.
  intros Hn. unfold get_list, remove_key.
  induction h as [|[k' v'] h IH]; simpl; [reflexivity|].
  destruct (same_key k k') eqn:E; simpl.
  - rewrite (same_key_other name k k' Hn E). exact IH.
  - destruct (same_key name k'); simpl; [f_equal|]; exact IH.
Qed.

Lemma get_list_setitem_other name k v h :
  same_key name k = false ->
  get_list name (setitem k v h) = get_list name h.
Proof.
  intros Hn.
  rewrite <- (get_list_remove_other name k (setitem k v h)) by exact Hn.
  rewrite remove_key_setitem. apply get_list_remove_other, Hn.
Qed.

Section SignerRuns.

Variable prepare :
  string -> string -> Headers -> list Byte.byte ->
  result (string * Headers * list Byte.byte).

Local Abbreviation auth_flow := (OAuth1Auth.auth_flow prepare).

(** X9: when the signer raises, the flow raises the same exception before
    it yields: under any pipeline no request goes out. *)
Theorem unsigned_request_is_not_sent request e :
  prepare (Request.method request) (Request.url request)
          (Request.headers request) (Request.content request)
  = Raise e ->
  auth_flow request = Throw e /\
  forall send, drive send (auth_flow request) = ([], Raise e).
Proof.
  intros Hp. pose proof (auth_flow_shape prepare request) as Hshape.
  rewrite Hp in Hshape. rewrite Hshape. split; reflexivity.
Qed.

(** X10: the header fields the signer returned, the [Authorization] header
    among them, go out as they are: apart from [Content-Length] the yielded
    request has the signer's fields, in the signer's order, and every other
    header reads as the signer left it. *)
Theorem signed_request_keeps_other_headers request url headers body signed k :
  prepare (Request.method request) (Request.url request)
          (Request.headers request) (Request.content request)
  = Ok (url, headers, body) ->
  auth_flow request = Yield signed k ->
  remove_key "Content-Length" (Request.headers signed)
  = remove_key "Content-Length" headers /\
  forall name, same_key name "Content-Length" = false ->
    get_list name (Request.headers signed) = get_list name headers.
Proof.
  intros Hp Hflow.
  pose proof (auth_flow_shape prepare request) as Hshape.
  rewrite Hp in Hshape. rewrite Hshape in Hflow.
  injection Hflow as <- _. simpl. split.
  - apply remove_key_setitem.
  - intros name Hname. apply get_list_setitem_other, Hname.
Qed.

End SignerRuns.

Lemma unsigned_request_is_not_sent_witness :
  OAuth1Auth.auth_flow Sample.failing_prepare Sample.form_request
  = Throw (MissingCredential "client_secret") /\
  forall send,
    drive send (OAuth1Auth.auth_flow Sample.failing_prepare Sample.form_request)
    = ([], Raise (MissingCredential "client_secret")).
Proof.
  apply unsigned_request_is_not_sent. reflexivity.
Defined.

Lemma signed_request_keeps_other_headers_witness :
  get_list "authorization"
    (Request.headers
       (build_request "https://ex.com/resource"
          (setitem "Content-Length" "3"
             (setitem "Authorization" "OAuth oauth_signature=sig"
                (Request.headers Sample.form_request)))
          (list_byte_of_string "a=b") Sample.form_request))
  = get_list "authorization"
      (setitem "Authorization" "OAuth oauth_signature=sig"
         (Request.headers Sample.form_request)).
Proof.
  refine (proj2 (signed_request_keeps_other_headers Sample.header_prepare
            Sample.form_request _ _ _ _ (fun _ => Return tt) _ _)
            "authorization" _); reflexivity.
Defined.

(** ** The constructors, further *)

Section ConstructorRuns.

Variable extract_client_kwargs : Kwargs -> Kwargs * Kwargs.

Local Abbreviation sync_init := (OAuth1Client.__init__ extract_client_kwargs).
Local Abbreviation async_init := (AsyncOAuth1Client.__init__ extract_client_kwargs).

(** X11: the blocking constructor never hands an [app] keyword to
    [httpx.Client], whatever the caller passed: a WSGI application, [None],
    or nothing. *)
Theorem app_never_reaches_httpx_Client args kwargs :
  httpx_init (sync_init args kwargs) !! "app" = None.
Proof.
  rewrite sync_httpx_init. cbv zeta.
  destruct (<["verify" := VBool false]> _ !! "app") as [[]|];
    try (rewrite lookup_insert_ne by done); apply lookup_delete_eq.
Qed.

(** X12: without an [app], or with [app=None], the blocking constructor
    builds no transport of its own: [httpx.Client] gets the client keyword
    arguments with [verify] off and [app] gone, and the transport is the one
    the caller gave, if any. *)
Theorem no_app_no_WSGITransport args kwargs :
  fst (extract_client_kwargs kwargs) !! "app" = None \/
  fst (extract_client_kwargs kwargs) !! "app" = Some VNone ->
  httpx_init (sync_init args kwargs)
  = delete "app" (<["verify" := VBool false]> (fst (extract_client_kwargs kwargs))) /\
  httpx_init (sync_init args kwargs) !! "transport"
  = fst (extract_client_kwargs kwargs) !! "transport".
Proof.
  intros Happ.
  assert (Heq : httpx_init (sync_init args kwargs)
                = delete "app" (<["verify" := VBool false]>
                                  (fst (extract_client_kwargs kwargs)))).
  { rewrite sync_httpx_init. cbv zeta.
    rewrite (lookup_insert_ne _ "verify") by done.
    destruct Happ as [-> | ->]; reflexivity. }
  split; [exact Heq|].
  rewrite Heq, lookup_delete_ne, lookup_insert_ne by done. reflexivity.
Qed.

(** X13: the constructors leave every other keyword argument of the HTTP
    client as it was extracted: the asynchronous one changes [verify] only,
    the blocking one [verify], [app] and [transport] only. *)
Theorem other_client_kwargs_pass_through args kwargs k :
  k <> "verify" ->
  httpx_init (async_init args kwargs) !! k
  = fst (extract_client_kwargs kwargs) !! k /\
  (k <> "app" -> k <> "transport" ->
   httpx_init (sync_init args kwargs) !! k
   = fst (extract_client_kwargs kwargs) !! k).
Proof.
  intros Hv. split.
  - rewrite async_httpx_init. apply lookup_insert_ne. congruence.
  - intros Ha Ht. rewrite sync_httpx_init. cbv zeta.
    destruct (<["verify" := VBool false]> _ !! "app") as [[]|];
      try (rewrite lookup_insert_ne by congruence);
      rewrite lookup_delete_ne by congruence;
      apply lookup_insert_ne; congruence.
Qed.

(** X14: the two constructors differ in two things only. Both pass the same
    arguments and the same remaining keyword arguments to the OAuth 1 base
    initialiser, the asynchronous one with no session and the blocking one
    with itself as session; and what the blocking one hands to the HTTP
    client is what the asynchronous one hands over, with [app] taken out and
    turned into a transport. *)
Theorem constructors_agree args kwargs :
  oauth1_args (sync_init args kwargs) = oauth1_args (async_init args kwargs) /\
  oauth1_kwargs (sync_init args kwargs) = oauth1_kwargs (async_init args kwargs) /\
  oauth1_session (sync_init args kwargs) = SessionSelf /\
  oauth1_session (async_init args kwargs) = SessionNone /\
  httpx_init (sync_init args kwargs)
  = match httpx_init (async_init args kwargs) !! "app" with
    | None | Some VNone => delete "app" (httpx_init (async_init args kwargs))
    | Some app =>
        <["transport" := VWSGITransport app]>
          (delete "app" (httpx_init (async_init args kwargs)))
    end.
Proof.
  rewrite sync_httpx_init, async_httpx_init. cbv zeta.
  unfold OAuth1Client.__init__, AsyncOAuth1Client.__init__, OAuth1Client.pop.
  destruct (extract_client_kwargs kwargs) as [ck rest]. simpl.
  repeat split.
Qed.

End ConstructorRuns.

Lemma no_app_no_WSGITransport_witness :
  httpx_init (OAuth1Client.__init__ Sample.extract_client_kwargs Sample.args
                Sample.strict_kwargs)
  = delete "app" (<["verify" := VBool false]>
                    (fst (Sample.extract_client_kwargs Sample.strict_kwargs))) /\
  httpx_init (OAuth1Client.__init__ Sample.extract_client_kwargs Sample.args
                Sample.strict_kwargs) !! "transport"
  = fst (Sample.extract_client_kwargs Sample.strict_kwargs) !! "transport".
Proof.
  apply no_app_no_WSGITransport. left. vm_compute. reflexivity.
Defined.

Lemma other_client_kwargs_pass_through_witness :
  httpx_init (AsyncOAuth1Client.__init__ Sample.extract_client_kwargs Sample.args
                Sample.app_kwargs) !! "timeout"
  = fst (Sample.extract_client_kwargs Sample.app_kwargs) !! "timeout" /\
  httpx_init (OAuth1Client.__init__ Sample.extract_client_kwargs Sample.args
                Sample.app_kwargs) !! "timeout"
  = fst (Sample.extract_client_kwargs Sample.app_kwargs) !! "timeout".
Proof.
  pose proof (other_client_kwargs_pass_through Sample.extract_client_kwargs
                Sample.args Sample.app_kwargs "timeout") as H.
  destruct H as [Hasync Hsync]; [discriminate|].
  split; [exact Hasync|].
  apply Hsync; discriminate.
Defined.

